(** * GC9A01 display driver (driver/generic/gc9a01.py)

    A shallow embedding of the GC9A01 driver class [GC9A01_hw]: the MADCTL
    constants and rotation table, the initialization sequence built by
    [config_hw], and the orientation transform [apply_rotation], together
    with the properties the driver's specification states about them.

    Python integers are [Z]; [%] is [Z.modulo] (both take the sign of the
    divisor) and [|] is [Z.lor].  A [bytes] object is the list of its byte
    values.  Methods that mutate [self] are state transformers over the
    driver record, and Python exceptions are the left summand of the
    result. *)

From Stdlib Require Import ZArith List Bool Lia.
Import ListNotations.

Open Scope Z_scope.

(** ** The fragment of the Python runtime the driver uses *)

Module Py.

Inductive exn : Type :=
| IndexError
| ValueError.

Definition result (A : Type) : Type := (exn + A)%type.

(** [t[i]] on a tuple: a negative index counts from the end, anything
    outside [-len .. len-1] raises [IndexError]. *)
Definition getitem {A : Type} (t : list A) (i : Z) : result A :=
  let n := Z.of_nat (length t) in
  let j := if i <? 0 then i + n else i in
  if (0 <=? j) && (j <? n)
  then match nth_error t (Z.to_nat j) with
       | Some x => inr x
       | None => inl IndexError
       end
  else inl IndexError.

Definition is_byte (v : Z) : bool := (0 <=? v) && (v <? 256).

(** [bytes(l)] on a list of integers: [ValueError] unless every item is
    in [range(256)]. *)
Definition bytes (l : list Z) : result (list Z) :=
  if forallb is_byte l then inr l else inl ValueError.

End Py.

(** ** Command and MADCTL constants (those the driver class refers to) *)

Definition _NOP : Z := 0x00.
Definition _SWRESET : Z := 0x01.
Definition _SLPOUT : Z := 0x11.
Definition _INVON : Z := 0x21.
Definition _DISPLAY_ON : Z := 0x29.
Definition _MADCTL : Z := 0x36.

Definition _MADCTL_MY : Z := 0x80.
Definition _MADCTL_MX : Z := 0x40.
Definition _MADCTL_MV : Z := 0x20.
Definition _MADCTL_ML : Z := 0x10.
Definition _MADCTL_BGR : Z := 0x08.
Definition _MADCTL_RTL : Z := 0x04.

Definition _MADCTL_ROTS : list Z :=
  [ _MADCTL_MX;
    _MADCTL_MV;
    _MADCTL_MY;
    Z.lor (Z.lor _MADCTL_MX _MADCTL_MY) _MADCTL_MV ].


(** ** Register steps

    An item of an initialization sequence is a tuple [(reg, data)] or
    [(reg, data, delay)]. *)

Inductive RegisterStep : Type :=
| step2 (reg : Z) (data : list Z)
| step3 (reg : Z) (data : list Z) (delay : Z).

Definition command (s : RegisterStep) : Z :=
  match s with step2 r _ | step3 r _ _ => r end.

Definition parameters (s : RegisterStep) : list Z :=
  match s with step2 _ d | step3 _ d _ => d end.

Definition postDelayMs (s : RegisterStep) : option Z :=
  match s with step2 _ _ => None | step3 _ _ ms => Some ms end.

(** ** Transport and driver state *)

(** What the transport adapter is asked to do, in the order it is asked. *)
Inductive BusEvent : Type :=
| SendCommand (b : Z)
| SendData (payload : list Z)
| SleepMs (ms : Z).

Record St77xx_hw : Type := mkHw {
  res : Z * Z;
  suppRes : list (Z * Z);
  bgr : bool;
  rot : Z;
  width : Z;
  height : Z;
  bus : list BusEvent
}.

Definition set_rot (v : Z) (d : St77xx_hw) : St77xx_hw :=
  mkHw (res d) (suppRes d) (bgr d) v (width d) (height d) (bus d).

Definition set_width (v : Z) (d : St77xx_hw) : St77xx_hw :=
  mkHw (res d) (suppRes d) (bgr d) (rot d) v (height d) (bus d).

Definition set_height (v : Z) (d : St77xx_hw) : St77xx_hw :=
  mkHw (res d) (suppRes d) (bgr d) (rot d) (width d) v (bus d).

Definition emit (evs : list BusEvent) (d : St77xx_hw) : St77xx_hw :=
  mkHw (res d) (suppRes d) (bgr d) (rot d) (width d) (height d) (bus d ++ evs).

(** ** Methods as state transformers that may raise *)

Definition M (A : Type) : Type := St77xx_hw -> Py.result (A * St77xx_hw).

Definition ret {A : Type} (a : A) : M A := fun d => inr (a, d).

Definition bind {A B : Type} (m : M A) (k : A -> M B) : M B :=
  fun d => match m d with
           | inl e => inl e
           | inr (a, d') => k a d'
           end.

Definition lift {A : Type} (r : Py.result A) : M A :=
  fun d => match r with
           | inl e => inl e
           | inr a => inr (a, d)
           end.

Definition self {A : Type} (field : St77xx_hw -> A) : M A :=
  fun d => inr (field d, d).

Definition assign (upd : St77xx_hw -> St77xx_hw) : M unit :=
  fun d => inr (tt, upd d).

Declare Scope py_scope.
Delimit Scope py_scope with py.
Notation "x <- m ;; k" := (bind m (fun x => k))
  (at level 61, m at next level, right associativity) : py_scope.
Notation "m ;; k" := (bind m (fun _ => k))
  (at level 61, right associativity) : py_scope.
Open Scope py_scope.

(** Modelled from the spec: [write_register] belongs to the base class
    [st77xx.St77xx_hw], whose file is not part of this driver.  Section 4.5
    makes it the execution of one register step without a delay, and
    section 4.1 says what executing a step is: send the command byte and,
    if the parameters are non-empty, send them as one data payload. *)
Definition write_register (reg : Z) (buf : list Z) : M unit :=
  assign (emit (SendCommand reg ::
                match buf with [] => [] | _ :: _ => [SendData buf] end)).

(** Modelled from the spec: [_run_seq] belongs to the same base class.
    Section 4.1: the steps run in declared order, each one as a register
    write followed, when the step has a delay, by blocking for it. *)
Fixpoint _run_seq (seq : list RegisterStep) : M unit :=
  match seq with
  | [] => ret tt
  | s :: rest =>
      write_register (command s) (parameters s) ;;
      match postDelayMs s with
      | Some ms => assign (emit [SleepMs ms])
      | None => ret tt
      end ;;
      _run_seq rest
  end.

(** Modelled from the spec: the constructor of the base class keeps its
    keyword arguments as the attributes of the same names (the profile of
    section 3 and the initial rotation of section 6); the logical size is
    only established by the first [apply_rotation] and starts at zero, and
    nothing has been sent yet. *)
Definition St77xx_hw__init__ (res : Z * Z) (suppRes : list (Z * Z))
    (bgr : bool) (rot : Z) : St77xx_hw :=
  mkHw res suppRes bgr rot 0 0 [].

(** ** The driver class [GC9A01_hw] *)

Module GC9A01_hw.

(** [__init__(self, **kw)]: of the keyword arguments only [rot] is part
    of the state modelled here. *)
Definition __init__ (kw_rot : Z) : St77xx_hw :=
  St77xx_hw__init__ (240, 240) [(240, 240)] false kw_rot.

(** The list literal that [config_hw] hands to [_run_seq]; [self_rot] is
    the value of [self.rot] when the literal is evaluated.  The arguments
    of [bytes] are written as the byte lists they denote. *)
Definition config_hw_seq (self_rot : Z) : list RegisterStep :=
[
  step2 0xEF [0];
  step2 0xEB [0x14];
  step2 0xFE [0];
  step2 0xEF [0];
  step2 0xEB [0x14];
  step2 0x84 [0x40];
  step2 0x85 [0xFF];
  step2 0x86 [0xFF];
  step2 0x87 [0xFF];
  step2 0x88 [0x0A];
  step2 0x89 [0x21];
  step2 0x8A [0x00];
  step2 0x8B [0x80];
  step2 0x8C [0x01];
  step2 0x8D [0x01];
  step2 0x8E [0xFF];
  step2 0x8F [0xFF];
  step2 0xB6 [0x00; 0x00];
  step2 0x36 [0x48];
  step2 self_rot [0];
  step2 0x3A [0x05];
  step2 0x90 [0x08; 0x08; 0x08; 0x08];
  step2 0xBD [0x06];
  step2 0xBC [0x00];
  step2 0xFF [0x60; 0x01; 0x04];
  step2 0xC3 [0x13];
  step2 0xC4 [0x13];
  step2 0xC9 [0x22];
  step2 0xBE [0x11];
  step2 0xE1 [0x10; 0x0E];
  step2 0xDF [0x21; 0x0c; 0x02];
  step2 0xF0 [0x45; 0x09; 0x08; 0x08; 0x26; 0x2A];
  step2 0xF1 [0x43; 0x70; 0x72; 0x36; 0x37; 0x6F];
  step2 0xF2 [0x45; 0x09; 0x08; 0x08; 0x26; 0x2A];
  step2 0xF3 [0x43; 0x70; 0x72; 0x36; 0x37; 0x6F];
  step2 0xED [0x1B; 0x0B];
  step2 0xAE [0x77];
  step2 0xCD [0x63];
  step2 0x70 [0x07; 0x07; 0x04; 0x0E; 0x0F; 0x09; 0x07; 0x08; 0x03];
  step2 0xE8 [0x34];
  step2 0x62 [0x18; 0x0D; 0x71; 0xED; 0x70; 0x70; 0x18; 0x0F; 0x71; 0xEF; 0x70; 0x70];
  step2 0x63 [0x18; 0x11; 0x71; 0xF1; 0x70; 0x70; 0x18; 0x13; 0x71; 0xF3; 0x70; 0x70];
  step2 0x64 [0x28; 0x29; 0xF1; 0x01; 0xF1; 0x00; 0x07];
  step2 0x66 [0x3C; 0x00; 0xCD; 0x67; 0x45; 0x45; 0x10; 0x00; 0x00; 0x00];
  step2 0x67 [0x00; 0x3C; 0x00; 0x00; 0x00; 0x01; 0x54; 0x10; 0x32; 0x98];
  step2 0x74 [0x10; 0x85; 0x80; 0x00; 0x00; 0x4E; 0x00];
  step2 0x98 [0x3e; 0x07];
  step2 0x35 [0];
  step2 0x21 [0];
  step3 0x11 [0] 20;
  step3 0x29 [0] 120
].

Definition config_hw : M unit :=
  r <- self rot ;;
  _run_seq (config_hw_seq r).

Definition apply_rotation (rot_arg : Z) : M unit :=
  assign (set_rot rot_arg) ;;
  r <- self rot ;;
  (if r mod 2 =? 0
   then
     native <- self res ;;
     assign (set_width (fst native)) ;;
     assign (set_height (snd native))
   else
     native <- self res ;;
     assign (set_height (fst native)) ;;
     assign (set_width (snd native))) ;;
  r <- self rot ;;
  entry <- lift (Py.getitem _MADCTL_ROTS (r mod 4)) ;;
  buf <- lift (Py.bytes [Z.lor _MADCTL_BGR entry]) ;;
  write_register _MADCTL buf.

End GC9A01_hw.

(** ** The orientation transform as the specification words it

    Section 4.2: the register value is the colour-order bit of the
    configured colour order OR-ed with the table entry of the index reduced
    modulo 4. *)

Definition colorOrderBit (is_bgr : bool) : Z :=
  if is_bgr then _MADCTL_BGR else 0.

Definition spec_madctlValue (is_bgr : bool) (rotationIndex : Z) : Z :=
  Z.lor (colorOrderBit is_bgr)
        (nth (Z.to_nat (rotationIndex mod 4)) _MADCTL_ROTS 0).

(** ** Closed forms used by the proofs *)

(** The state [apply_rotation rot_arg] leaves behind when it starts in [d]. *)
Definition rotated (rot_arg : Z) (d : St77xx_hw) : St77xx_hw :=
  mkHw (res d) (suppRes d) (bgr d) rot_arg
       (if rot_arg mod 2 =? 0 then fst (res d) else snd (res d))
       (if rot_arg mod 2 =? 0 then snd (res d) else fst (res d))
       (bus d ++
        [SendCommand _MADCTL;
         SendData [Z.lor _MADCTL_BGR
                     (nth (Z.to_nat (rot_arg mod 4)) _MADCTL_ROTS 0)]]).

(** What running a sequence puts on the bus. *)
Definition step_events (s : RegisterStep) : list BusEvent :=
  SendCommand (command s) ::
  match parameters s with [] => [] | _ :: _ => [SendData (parameters s)] end ++
  match postDelayMs s with Some ms => [SleepMs ms] | None => [] end.

(** The commands of the controller's command set that take no argument and
    that the initialization sequence uses. *)
Definition noarg_commands : list Z := [0x11; 0x29; 0x21; 0x35; 0xEF; 0xFE].

Definition is_noarg (c : Z) : bool := existsb (Z.eqb c) noarg_commands.

(** ** Callers

    A caller that sets the rotation several times in turn, one
    [apply_rotation] call per item of [rs], on the same driver object. *)
Fixpoint apply_rotations (rs : list Z) : M unit :=
  match rs with
  | [] => ret tt
  | r :: rest => GC9A01_hw.apply_rotation r ;; apply_rotations rest
  end.

(** The register write of one [apply_rotation rot_arg] call as it appears
    on the bus: the MADCTL command byte, then the one-byte payload holding
    the BGR bit OR-ed with the table entry at [rot_arg % 4]. *)
Definition rotation_write (rot_arg : Z) : list BusEvent :=
  [SendCommand _MADCTL;
   SendData [Z.lor _MADCTL_BGR
               (nth (Z.to_nat (rot_arg mod 4)) _MADCTL_ROTS 0)]].

(** * Properties *)

(** C3: the rotation table has four entries: index 0 is MX alone (0x40),
    index 1 is MV alone (0x20), index 2 is MY alone (0x80) and index 3 is
    MX|MY|MV (0xE0). *)
Lemma rots_table :
  length _MADCTL_ROTS = 4%nat /\
  Py.getitem _MADCTL_ROTS 0 = inr _MADCTL_MX /\ _MADCTL_MX = 0x40 /\
  Py.getitem _MADCTL_ROTS 1 = inr _MADCTL_MV /\ _MADCTL_MV = 0x20 /\
  Py.getitem _MADCTL_ROTS 2 = inr _MADCTL_MY /\ _MADCTL_MY = 0x80 /\
  Py.getitem _MADCTL_ROTS 3 = inr (Z.lor (Z.lor _MADCTL_MX _MADCTL_MY) _MADCTL_MV) /\
  Z.lor (Z.lor _MADCTL_MX _MADCTL_MY) _MADCTL_MV = 0xE0.
Proof. repeat split; reflexivity. Qed.

(** ** Shared lemmas *)

Lemma mod4_cases (r : Z) :
  r mod 4 = 0 \/ r mod 4 = 1 \/ r mod 4 = 2 \/ r mod 4 = 3.
Proof. pose proof (Z.mod_pos_bound r 4). lia. Qed.

(** Settle a goal about [r mod 4] by computing it at each of the four
    values the remainder can take. *)
Ltac by_mod4 r :=
  let H := fresh "H" in
  destruct (mod4_cases r) as [H | [H | [H | H]]]; rewrite H; reflexivity.

Lemma getitem_rots (r : Z) :
  Py.getitem _MADCTL_ROTS (r mod 4)
  = inr (nth (Z.to_nat (r mod 4)) _MADCTL_ROTS 0).
Proof.
  by_mod4 r.
Qed.

Lemma madctl_is_byte (r : Z) :
  Py.bytes [Z.lor _MADCTL_BGR (nth (Z.to_nat (r mod 4)) _MADCTL_ROTS 0)]
  = inr [Z.lor _MADCTL_BGR (nth (Z.to_nat (r mod 4)) _MADCTL_ROTS 0)].
Proof.
  by_mod4 r.
Qed.

(** [apply_rotation] never raises, and [rotated] is what it computes. *)
Lemma apply_rotation_run (r : Z) (d : St77xx_hw) :
  GC9A01_hw.apply_rotation r d = inr (tt, rotated r d).
Proof.
  unfold GC9A01_hw.apply_rotation, bind, assign, self.
  cbn [rot set_rot].
  destruct (r mod 2 =? 0) eqn:Hpar;
    cbn [rot res set_rot set_width set_height fst snd width height bgr suppRes bus];
    rewrite getitem_rots; unfold lift; rewrite madctl_is_byte;
    unfold write_register, assign, emit, rotated;
    cbn [rot res set_rot set_width set_height fst snd width height bgr suppRes bus];
    rewrite Hpar; reflexivity.
Qed.

Lemma emit_nil (d : St77xx_hw) : emit [] d = d.
Proof. destruct d; unfold emit; cbn; now rewrite app_nil_r. Qed.

Lemma emit_emit (a b : list BusEvent) (d : St77xx_hw) :
  emit b (emit a d) = emit (a ++ b) d.
Proof. unfold emit; cbn; now rewrite app_assoc. Qed.

(** Running a sequence never raises: it appends the events of its steps,
    in order, and touches nothing else. *)
Lemma _run_seq_run (seq : list RegisterStep) :
  forall d, _run_seq seq d = inr (tt, emit (flat_map step_events seq) d).
Proof.
  induction seq as [| s rest IH]; intros d.
  - cbn. now rewrite emit_nil.
  - cbn [_run_seq flat_map]. unfold bind at 1. unfold write_register at 1, assign at 1.
    unfold bind at 1.
    destruct (postDelayMs s) as [ms |] eqn:Hd.
    + unfold assign. rewrite IH, !emit_emit. unfold step_events. rewrite Hd.
      cbn [app]. now rewrite <- ?app_assoc.
    + unfold ret. rewrite IH, !emit_emit. unfold step_events. rewrite Hd.
      cbn [app]. now rewrite ?app_nil_r.
Qed.

Lemma config_hw_run (d : St77xx_hw) :
  GC9A01_hw.config_hw d
  = inr (tt, emit (flat_map step_events (GC9A01_hw.config_hw_seq (rot d))) d).
Proof.
  unfold GC9A01_hw.config_hw, bind, self. apply _run_seq_run.
Qed.

(** Every [bytes([...])] call of the sequence literal succeeds: all the
    listed values are in [range(256)]. *)
Lemma config_hw_seq_bytes (r : Z) :
  Forall (fun s => Py.bytes (parameters s) = inr (parameters s))
         (GC9A01_hw.config_hw_seq r).
Proof. unfold GC9A01_hw.config_hw_seq. repeat constructor. Qed.

(** Apart from its twentieth item the sequence does not look at [self.rot]. *)
Lemma config_hw_seq_elsewhere (r r' : Z) (i : nat) :
  i <> 19%nat ->
  nth_error (GC9A01_hw.config_hw_seq r) i
  = nth_error (GC9A01_hw.config_hw_seq r') i.
Proof.
  intros Hi. unfold GC9A01_hw.config_hw_seq.
  do 19 (destruct i as [| i]; [reflexivity |]).
  destruct i as [| i]; [congruence |].
  reflexivity.
Qed.

(** ** The orientation transform *)

(** C1, as the code has it: for every rotation index [r] and every driver
    state, whatever colour order it was constructed with, [apply_rotation]
    succeeds and writes to MADCTL the single byte made of the BGR bit
    (0x08) OR-ed with the table entry at [r % 4]; the BGR bit is therefore
    set in every byte it writes. *)
Theorem apply_rotation_madctl (r : Z) (d : St77xx_hw) :
  exists d' entry,
    GC9A01_hw.apply_rotation r d = inr (tt, d') /\
    Py.getitem _MADCTL_ROTS (r mod 4) = inr entry /\
    bus d' = bus d ++ [SendCommand _MADCTL;
                       SendData [Z.lor _MADCTL_BGR entry]] /\
    Z.land (Z.lor _MADCTL_BGR entry) _MADCTL_BGR = _MADCTL_BGR.
Proof.
  exists (rotated r d), (nth (Z.to_nat (r mod 4)) _MADCTL_ROTS 0).
  split; [apply apply_rotation_run |].
  split; [apply getitem_rots |].
  split; [reflexivity |].
  by_mod4 r.
Qed.

(** C1 as stated fails on the driver as constructed (colour order RGB,
    [bgr=False]) at rotation 0: the byte written is 0x48, not the 0x40 that
    the configured colour-order bit OR-ed with the table entry gives, and
    its BGR bit is set. *)
Lemma apply_rotation_sets_bgr_on_rgb_driver :
  bgr (GC9A01_hw.__init__ 0) = false /\
  GC9A01_hw.apply_rotation 0 (GC9A01_hw.__init__ 0)
  = inr (tt, mkHw (240, 240) [(240, 240)] false 0 240 240
                  [SendCommand 0x36; SendData [0x48]]) /\
  spec_madctlValue (bgr (GC9A01_hw.__init__ 0)) 0 = 0x40 /\
  0x48 <> spec_madctlValue (bgr (GC9A01_hw.__init__ 0)) 0 /\
  Z.land 0x48 _MADCTL_BGR <> 0.
Proof. repeat split; try reflexivity; discriminate. Qed.

(** C4: for every rotation index [r], after [apply_rotation r] the logical
    (width, height) is the native resolution [res] when [r % 2 == 0], and
    the native values swapped otherwise; [res] itself is left alone. *)
Theorem apply_rotation_logical_size (r : Z) (d : St77xx_hw) :
  exists d',
    GC9A01_hw.apply_rotation r d = inr (tt, d') /\
    res d' = res d /\
    if r mod 2 =? 0
    then (width d', height d') = res d
    else (width d', height d') = (snd (res d), fst (res d)).
Proof.
  exists (rotated r d). split; [apply apply_rotation_run |].
  split; [reflexivity |].
  unfold rotated; cbn [width height].
  destruct (r mod 2 =? 0); [now destruct (res d) | reflexivity].
Qed.

(** C6: for every integer [r], [apply_rotation r] and
    [apply_rotation (r % 4)], started in the same state, write the same
    MADCTL byte and leave the same logical width and height. *)
Theorem apply_rotation_mod4 (r : Z) (d : St77xx_hw) :
  exists d1 d2,
    GC9A01_hw.apply_rotation r d = inr (tt, d1) /\
    GC9A01_hw.apply_rotation (r mod 4) d = inr (tt, d2) /\
    bus d1 = bus d2 /\
    width d1 = width d2 /\
    height d1 = height d2.
Proof.
  exists (rotated r d), (rotated (r mod 4) d).
  split; [apply apply_rotation_run |].
  split; [apply apply_rotation_run |].
  unfold rotated; cbn [bus width height].
  rewrite Z.mod_mod by lia.
  rewrite (Z.mod_mod_divide r 4 2) by (exists 2; reflexivity).
  repeat split.
Qed.

(** C7: for every rotation index [r] in 0..3, a second [apply_rotation r]
    right after the first performs the same register write and leaves the
    same logical width and height (and the same stored index). *)
Theorem apply_rotation_idempotent (r : Z) (d : St77xx_hw) :
  0 <= r <= 3 ->
  exists d1 d2 write,
    GC9A01_hw.apply_rotation r d = inr (tt, d1) /\
    GC9A01_hw.apply_rotation r d1 = inr (tt, d2) /\
    bus d1 = bus d ++ write /\
    bus d2 = bus d1 ++ write /\
    width d2 = width d1 /\
    height d2 = height d1 /\
    rot d2 = rot d1.
Proof.
  intros _.
  exists (rotated r d), (rotated r (rotated r d)).
  eexists.
  split; [apply apply_rotation_run |].
  split; [apply apply_rotation_run |].
  unfold rotated; cbn [bus width height rot res].
  repeat split.
Qed.

(** The idempotence statement at rotation 3 on a freshly constructed
    driver. *)
Lemma apply_rotation_idempotent_witness :
  exists d1 d2 write,
    GC9A01_hw.apply_rotation 3 (GC9A01_hw.__init__ 0) = inr (tt, d1) /\
    GC9A01_hw.apply_rotation 3 d1 = inr (tt, d2) /\
    bus d1 = bus (GC9A01_hw.__init__ 0) ++ write /\
    bus d2 = bus d1 ++ write /\
    width d2 = width d1 /\
    height d2 = height d1 /\
    rot d2 = rot d1.
Proof. apply (apply_rotation_idempotent 3 (GC9A01_hw.__init__ 0)); lia. Defined.

(** C8 as stated fails: [apply_rotation] stores its argument as it is, so
    after [apply_rotation 5] the stored rotation index is 5. *)
Lemma apply_rotation_stores_5 :
  GC9A01_hw.apply_rotation 5 (GC9A01_hw.__init__ 0)
  = inr (tt, mkHw (240, 240) [(240, 240)] false 5 240 240
                  [SendCommand 0x36; SendData [0x28]]) /\
  ~ (0 <= 5 <= 3).
Proof. split; [reflexivity | lia]. Qed.

(** C8, as the code has it: for every integer argument, in range or
    not, [apply_rotation] stores the argument itself, unreduced (the
    reductions modulo 2 and modulo 4 happen only where the index is used);
    so the stored rotation index is an integer in 0..3 exactly when the
    argument is. *)
Theorem apply_rotation_stored_index (r : Z) (d : St77xx_hw) :
  exists d',
    GC9A01_hw.apply_rotation r d = inr (tt, d') /\
    rot d' = r /\
    (0 <= rot d' <= 3 <-> 0 <= r <= 3).
Proof.
  exists (rotated r d).
  split; [apply apply_rotation_run |].
  split; [reflexivity |].
  unfold rotated; cbn [rot]. reflexivity.
Qed.

(** C9: on the 240x240 panel of the GC9A01 driver, rotation 1 applied
    after rotation 0 leaves the logical width and height at 240 each, and
    the MADCTL byte written for rotation 1 is not the one written for
    rotation 0. *)
Theorem rotation_1_on_square_panel (kw_rot : Z) :
  exists d0 d1 b0 b1,
    GC9A01_hw.apply_rotation 0 (GC9A01_hw.__init__ kw_rot) = inr (tt, d0) /\
    GC9A01_hw.apply_rotation 1 d0 = inr (tt, d1) /\
    (width d0, height d0) = (240, 240) /\
    (width d1, height d1) = (240, 240) /\
    bus d0 = [SendCommand _MADCTL; SendData [b0]] /\
    bus d1 = bus d0 ++ [SendCommand _MADCTL; SendData [b1]] /\
    b0 <> b1.
Proof.
  eexists _, _, _, _.
  split; [apply apply_rotation_run |].
  split; [apply apply_rotation_run |].
  repeat split. discriminate.
Qed.

(** ** The initialization sequence *)

(** C2 does not hold of the code: the twentieth item of the sequence takes
    [self.rot] as its command byte.  With the rotation index 0 that item is
    a NOP (0x00), with 1 it is a software reset (0x01), so the two
    sequences differ, and so does what [config_hw] sends: the event at
    position 38 of the bus is the command byte 0x00 in one run and 0x01 in
    the other. *)
Theorem config_hw_seq_reads_rot :
  nth_error (GC9A01_hw.config_hw_seq 0) 19 = Some (step2 _NOP [0]) /\
  nth_error (GC9A01_hw.config_hw_seq 1) 19 = Some (step2 _SWRESET [0]) /\
  GC9A01_hw.config_hw_seq 0 <> GC9A01_hw.config_hw_seq 1 /\
  (exists d0 d1,
     GC9A01_hw.config_hw (GC9A01_hw.__init__ 0) = inr (tt, d0) /\
     GC9A01_hw.config_hw (GC9A01_hw.__init__ 1) = inr (tt, d1) /\
     nth_error (bus d0) 38 = Some (SendCommand _NOP) /\
     nth_error (bus d1) 38 = Some (SendCommand _SWRESET)).
Proof.
  split; [reflexivity |].
  split; [reflexivity |].
  split.
  - intros H. apply (f_equal (fun l => nth_error l 19)) in H. discriminate H.
  - eexists _, _.
    split; [apply config_hw_run |].
    split; [apply config_hw_run |].
    split; reflexivity.
Qed.

(** C5: whatever the rotation index, the initialization sequence ends with
    the exit-sleep command (0x11) with a delay of 20 ms followed, as its
    last step, by the display-on command (0x29) with a delay of 120 ms, and
    no step before these two has a delay. *)
Theorem config_hw_seq_tail (r : Z) :
  exists front,
    GC9A01_hw.config_hw_seq r
    = front ++ [step3 _SLPOUT [0] 20; step3 _DISPLAY_ON [0] 120] /\
    Forall (fun s => postDelayMs s = None) front.
Proof.
  exists (firstn 49 (GC9A01_hw.config_hw_seq r)).
  split; [reflexivity |].
  cbn [firstn GC9A01_hw.config_hw_seq]. repeat constructor.
Qed.

(** C10: whatever the rotation index, every step of the initialization
    sequence has a non-empty parameter list; a step whose command is one of
    the argument-less commands 0x11, 0x29, 0x21, 0x35, 0xEF, 0xFE carries
    the single parameter byte 0x00, and each of these commands does occur
    in the sequence. *)
Theorem config_hw_seq_parameters (r : Z) :
  Forall (fun s => parameters s <> [] /\
                   (is_noarg (command s) = true -> parameters s = [0]))
         (GC9A01_hw.config_hw_seq r) /\
  Forall (fun c => In (step2 c [0]) (GC9A01_hw.config_hw_seq r) \/
                   exists ms, In (step3 c [0] ms) (GC9A01_hw.config_hw_seq r))
         noarg_commands.
Proof.
  split.
  - unfold GC9A01_hw.config_hw_seq.
    repeat (apply Forall_cons; [split; [discriminate | ] |]);
      try apply Forall_nil;
      cbn [command parameters]; intros H;
      solve [reflexivity | discriminate H].
  - unfold noarg_commands, GC9A01_hw.config_hw_seq.
    repeat (apply Forall_cons; [| ]); try apply Forall_nil.
    + right. exists 20. cbn. tauto.
    + right. exists 120. cbn. tauto.
    + left. cbn. tauto.
    + left. cbn. tauto.
    + left. cbn. tauto.
    + left. cbn. tauto.
Qed.

(** * Further properties of the orientation transform *)

Lemma rot_cases (r : Z) :
  (r mod 4 = 0 /\ r mod 2 = 0) \/ (r mod 4 = 1 /\ r mod 2 = 1) \/
  (r mod 4 = 2 /\ r mod 2 = 0) \/ (r mod 4 = 3 /\ r mod 2 = 1).
Proof.
  rewrite <- (Z.mod_mod_divide r 4 2) by (exists 2; reflexivity).
  destruct (mod4_cases r) as [H | [H | [H | H]]]; rewrite H; cbn; tauto.
Qed.

(** Replace [r mod 4] and [r mod 2] by their values, one goal per residue. *)
Ltac by_residue r :=
  let H4 := fresh "H4" in
  let H2 := fresh "H2" in
  destruct (rot_cases r) as [[H4 H2] | [[H4 H2] | [[H4 H2] | [H4 H2]]]];
  rewrite ?H4, ?H2.

(** X1: the logical width and height are swapped exactly when the byte
    written to MADCTL has the row/column exchange bit MV set, and that is
    exactly when the rotation index is odd. *)
Theorem apply_rotation_swap_iff_mv (r : Z) (d : St77xx_hw) :
  exists d' b,
    GC9A01_hw.apply_rotation r d = inr (tt, d') /\
    bus d' = bus d ++ [SendCommand _MADCTL; SendData [b]] /\
    Z.land b _MADCTL_MV = (if r mod 2 =? 0 then 0 else _MADCTL_MV) /\
    (width d', height d')
    = (if Z.land b _MADCTL_MV =? 0 then res d else (snd (res d), fst (res d))).
Proof.
  eexists (rotated r d), _.
  split; [apply apply_rotation_run |].
  split; [reflexivity |].
  unfold rotated; cbn [width height].
  by_residue r; (split; [reflexivity |]); cbn; now destruct (res d).
Qed.

(** X2: two rotation indices make [apply_rotation] write the same MADCTL
    byte if and only if they are congruent modulo 4: the four orientations
    have four different register values. *)
Theorem apply_rotation_byte_injective (r1 r2 : Z) (d : St77xx_hw) :
  exists d1 d2 b1 b2,
    GC9A01_hw.apply_rotation r1 d = inr (tt, d1) /\
    GC9A01_hw.apply_rotation r2 d = inr (tt, d2) /\
    bus d1 = bus d ++ [SendCommand _MADCTL; SendData [b1]] /\
    bus d2 = bus d ++ [SendCommand _MADCTL; SendData [b2]] /\
    (b1 = b2 <-> r1 mod 4 = r2 mod 4).
Proof.
  eexists (rotated r1 d), (rotated r2 d), _, _.
  split; [apply apply_rotation_run |].
  split; [apply apply_rotation_run |].
  split; [reflexivity |].
  split; [reflexivity |].
  by_residue r1; by_residue r2; cbn; split; intros E;
    solve [reflexivity | discriminate E].
Qed.

(** X3: whatever integer is passed, the byte written to MADCTL is one of
    0x48, 0x28, 0x88 and 0xE8: it is a valid byte, and the line-order bit
    ML and the refresh-order bit RTL are never set in it. *)
Theorem apply_rotation_byte_values (r : Z) (d : St77xx_hw) :
  exists d' b,
    GC9A01_hw.apply_rotation r d = inr (tt, d') /\
    bus d' = bus d ++ [SendCommand _MADCTL; SendData [b]] /\
    In b [0x48; 0x28; 0x88; 0xE8] /\
    0 <= b < 256 /\
    Z.land b (Z.lor _MADCTL_ML _MADCTL_RTL) = 0.
Proof.
  eexists (rotated r d), _.
  split; [apply apply_rotation_run |].
  split; [reflexivity |].
  by_residue r;
    (split; [cbn; tauto | split; [| reflexivity]]);
    vm_compute; (split; [discriminate | reflexivity]).
Qed.

Lemma mod4_shift (r k : Z) : (r + 4 * k) mod 4 = r mod 4.
Proof. replace (r + 4 * k) with (r + k * 4) by lia. apply Z.mod_add. lia. Qed.

Lemma mod2_shift (r k : Z) : (r + 2 * k) mod 2 = r mod 2.
Proof. replace (r + 2 * k) with (r + k * 2) by lia. apply Z.mod_add. lia. Qed.

(** X4: the rotation index counts quarter turns around a full circle, in
    both directions: adding any multiple of 4 to it, positive or negative,
    changes neither the MADCTL byte written nor the logical width and
    height ([apply_rotation (-1)] acts as [apply_rotation 3]). *)
Theorem apply_rotation_full_turns (r k : Z) (d : St77xx_hw) :
  exists d1 d2,
    GC9A01_hw.apply_rotation r d = inr (tt, d1) /\
    GC9A01_hw.apply_rotation (r + 4 * k) d = inr (tt, d2) /\
    bus d2 = bus d1 /\
    width d2 = width d1 /\
    height d2 = height d1.
Proof.
  exists (rotated r d), (rotated (r + 4 * k) d).
  split; [apply apply_rotation_run |].
  split; [apply apply_rotation_run |].
  unfold rotated; cbn [bus width height].
  rewrite mod4_shift.
  replace (r + 4 * k) with (r + 2 * (2 * k)) by lia.
  rewrite mod2_shift.
  repeat split.
Qed.

(** X5: one more quarter turn exchanges the logical width and height, and
    one more half turn leaves them as they are, from every integer index. *)
Theorem apply_rotation_quarter_half_turn (r : Z) (d : St77xx_hw) :
  exists d0 d1 d2,
    GC9A01_hw.apply_rotation r d = inr (tt, d0) /\
    GC9A01_hw.apply_rotation (r + 1) d = inr (tt, d1) /\
    GC9A01_hw.apply_rotation (r + 2) d = inr (tt, d2) /\
    (width d1, height d1) = (height d0, width d0) /\
    (width d2, height d2) = (width d0, height d0).
Proof.
  exists (rotated r d), (rotated (r + 1) d), (rotated (r + 2) d).
  split; [apply apply_rotation_run |].
  split; [apply apply_rotation_run |].
  split; [apply apply_rotation_run |].
  unfold rotated; cbn [width height].
  replace (r + 2) with (r + 2 * 1) by lia. rewrite mod2_shift.
  split; [| reflexivity].
  assert (H : (r + 1) mod 2 = 1 - r mod 2).
  { rewrite Z.add_mod by lia.
    destruct (rot_cases r) as [[_ H] | [[_ H] | [[_ H] | [_ H]]]];
      rewrite H; reflexivity. }
  rewrite H.
  destruct (rot_cases r) as [[_ E] | [[_ E] | [[_ E] | [_ E]]]];
    rewrite E; reflexivity.
Qed.

(** X6: the orientation is that of the latest call: after
    [apply_rotation r1] and then [apply_rotation r2], the stored index and
    the logical width and height are those a single [apply_rotation r2]
    gives, whatever [r1] was; the bus carries the two register writes in
    the order of the calls. *)
Theorem apply_rotation_last_call_wins (r1 r2 : Z) (d : St77xx_hw) :
  exists d1 d12 d2 w1 w2,
    GC9A01_hw.apply_rotation r1 d = inr (tt, d1) /\
    GC9A01_hw.apply_rotation r2 d1 = inr (tt, d12) /\
    GC9A01_hw.apply_rotation r2 d = inr (tt, d2) /\
    rot d12 = rot d2 /\
    width d12 = width d2 /\
    height d12 = height d2 /\
    bus d1 = bus d ++ w1 /\
    bus d2 = bus d ++ w2 /\
    bus d12 = bus d ++ w1 ++ w2.
Proof.
  eexists (rotated r1 d), (rotated r2 (rotated r1 d)), (rotated r2 d), _, _.
  split; [apply apply_rotation_run |].
  split; [apply apply_rotation_run |].
  split; [apply apply_rotation_run |].
  unfold rotated; cbn [rot width height bus res].
  rewrite <- app_assoc.
  repeat split.
Qed.

Lemma apply_rotations_cons (r : Z) (rs : list Z) (d : St77xx_hw) :
  apply_rotations (r :: rs) d = apply_rotations rs (rotated r d).
Proof.
  cbn [apply_rotations]. unfold bind. now rewrite apply_rotation_run.
Qed.

(** Any run of rotations returns normally; it leaves the profile alone
    and appends to the bus the register writes of its calls, in call
    order. *)
Lemma apply_rotations_frame (rs : list Z) :
  forall d, exists d',
    apply_rotations rs d = inr (tt, d') /\
    res d' = res d /\ suppRes d' = suppRes d /\ bgr d' = bgr d /\
    bus d' = bus d ++ flat_map rotation_write rs.
Proof.
  induction rs as [| r rs IH]; intros d.
  - exists d. cbn. rewrite app_nil_r. repeat split.
  - destruct (IH (rotated r d)) as (d' & Hrun & Hres & Hsupp & Hbgr & Hbus).
    exists d'.
    rewrite apply_rotations_cons.
    split; [exact Hrun |].
    split; [exact Hres |].
    split; [exact Hsupp |].
    split; [exact Hbgr |].
    rewrite Hbus. unfold rotated; cbn [bus flat_map].
    rewrite <- app_assoc. reflexivity.
Qed.

(** The last item of a non-empty list does not depend on the default. *)
Lemma last_cons_default (rs : list Z) :
  forall r a : Z, last (r :: rs) a = last rs r.
Proof.
  induction rs as [| x rs IH]; intros r a; [reflexivity |].
  change (last (x :: rs) a = last (x :: rs) r).
  now rewrite (IH x a), (IH x r).
Qed.

(** After a run that makes at least one call the orientation is that of
    its last call. *)
Lemma apply_rotations_last (rs : list Z) :
  forall r d d',
    apply_rotations (r :: rs) d = inr (tt, d') ->
    rot d' = last rs r /\
    width d' = width (rotated (last rs r) d) /\
    height d' = height (rotated (last rs r) d).
Proof.
  induction rs as [| r' rs IH]; intros r d d' Hrun.
  - rewrite apply_rotations_cons in Hrun. cbn in Hrun.
    injection Hrun as <-. repeat split.
  - rewrite apply_rotations_cons in Hrun.
    destruct (IH r' (rotated r d) d' Hrun) as (Hrot & Hw & Hh).
    rewrite last_cons_default.
    repeat split; assumption.
Qed.

(** X7: what any run of [apply_rotation] calls keeps.  The run raises
    neither [IndexError] nor [ValueError]; the native resolution, the
    supported resolutions and the colour order are untouched; the bus
    grows by exactly the register writes of the calls, in call order: for
    each argument the MADCTL command byte followed by the one-byte payload
    of that argument, the same pair a single call with that argument
    appends, and nothing else; and once a call was made, the stored index
    is the argument of the last call and the logical size is the native
    one or its swap, so that the number of pixels never changes. *)
Theorem apply_rotations_invariant (rs : list Z) (d : St77xx_hw) :
  exists d',
    apply_rotations rs d = inr (tt, d') /\
    res d' = res d /\ suppRes d' = suppRes d /\ bgr d' = bgr d /\
    bus d' = bus d ++ flat_map rotation_write rs /\
    Forall (fun r => exists d1,
              GC9A01_hw.apply_rotation r d = inr (tt, d1) /\
              bus d1 = bus d ++ rotation_write r) rs /\
    length (bus d') = (length (bus d) + 2 * length rs)%nat /\
    (rs = [] /\ d' = d \/
     rot d' = last rs 0 /\
     width d' * height d' = fst (res d) * snd (res d) /\
     ((width d', height d') = res d \/
      (width d', height d') = (snd (res d), fst (res d)))).
Proof.
  destruct (apply_rotations_frame rs d)
    as (d' & Hrun & Hres & Hsupp & Hbgr & Hbus).
  exists d'. repeat (split; [assumption |]).
  split.
  { apply Forall_forall. intros r _. exists (rotated r d).
    split; [apply apply_rotation_run | reflexivity]. }
  split.
  { rewrite Hbus, length_app. f_equal.
    clear. induction rs as [| r rs IH]; [reflexivity |].
    cbn [flat_map length rotation_write app]. rewrite IH. lia. }
  destruct rs as [| r rs]; [left | right].
  - cbn in Hrun. injection Hrun as <-. now split.
  - destruct (apply_rotations_last rs r d d' Hrun) as (Hrot & Hwd & Hht).
    rewrite last_cons_default.
    split; [exact Hrot |].
    rewrite Hwd, Hht. unfold rotated; cbn [width height].
    destruct (last rs r mod 2 =? 0), (res d) as [w0 h0]; cbn [fst snd];
      (split; [lia | auto]).
Qed.

(** X8: on the GC9A01 the panel is square, so after any run of at least
    one [apply_rotation] call on a freshly constructed driver, with any
    integers as rotation indices, the logical width and height are both
    240; the native resolution is still 240x240 and still one of the
    supported resolutions. *)
Theorem gc9a01_logical_size_240 (kw_rot r : Z) (rs : list Z) :
  exists d',
    apply_rotations (r :: rs) (GC9A01_hw.__init__ kw_rot) = inr (tt, d') /\
    width d' = 240 /\ height d' = 240 /\
    res d' = (240, 240) /\
    In (res d') (suppRes d').
Proof.
  destruct (apply_rotations_frame (r :: rs) (GC9A01_hw.__init__ kw_rot))
    as (d' & Hrun & Hres & Hsupp & _).
  exists d'. split; [exact Hrun |].
  destruct (apply_rotations_last rs r _ d' Hrun) as (_ & Hwd & Hht).
  rewrite Hwd, Hht, Hres, Hsupp. unfold rotated; cbn.
  destruct (last rs r mod 2 =? 0); repeat split; now left.
Qed.

(** * Further properties of the initialization sequence *)

(** X9: the value the initialization sequence gives MADCTL is the byte
    [apply_rotation 0] writes, so the panel leaves initialization in the
    portrait orientation; no other step of the sequence addresses MADCTL,
    except the step whose command byte is [self.rot] when that happens to
    be 0x36. *)
Theorem config_hw_seq_madctl_is_rotation_0 (self_rot : Z) (d : St77xx_hw) :
  exists d' b,
    GC9A01_hw.apply_rotation 0 d = inr (tt, d') /\
    bus d' = bus d ++ [SendCommand _MADCTL; SendData [b]] /\
    nth_error (GC9A01_hw.config_hw_seq self_rot) 18 = Some (step2 _MADCTL [b]) /\
    forall s, In s (GC9A01_hw.config_hw_seq self_rot) ->
              command s = _MADCTL ->
              s = step2 _MADCTL [b] \/ s = step2 self_rot [0].
Proof.
  eexists (rotated 0 d), _.
  split; [apply apply_rotation_run |].
  split; [reflexivity |].
  split; [reflexivity |].
  intros s Hin Hc. unfold GC9A01_hw.config_hw_seq in Hin. cbn [In] in Hin.
  unfold _MADCTL in Hc.
  repeat (destruct Hin as [<- | Hin];
          [cbn [command] in Hc; first [discriminate Hc | now left | now right] |]).
  contradiction.
Qed.

(** X10: the initialization sequence has 51 steps whatever [self.rot] is,
    and the sequences built for two values of [self.rot] agree at every
    position but the twentieth; they are the same sequence only when the
    two values are the same. *)
Theorem config_hw_seq_shape (r r' : Z) :
  length (GC9A01_hw.config_hw_seq r) = 51%nat /\
  (forall i, i <> 19%nat ->
             nth_error (GC9A01_hw.config_hw_seq r) i
             = nth_error (GC9A01_hw.config_hw_seq r') i) /\
  (GC9A01_hw.config_hw_seq r = GC9A01_hw.config_hw_seq r' <-> r = r').
Proof.
  split; [reflexivity |].
  split; [intros i Hi; now apply config_hw_seq_elsewhere |].
  split; [| now intros ->].
  intros H. apply (f_equal (fun l => nth_error l 19)) in H.
  cbn in H. now injection H.
Qed.
